(** * dobishem.storage: a shallow embedding of [src/dobishem/storage.py]

    The module reads and writes CSV, JSON and YAML files, picks the most
    recently modified of a set of files and regenerates a destination file
    from origin files when one of them is newer.

    Python values are a small inductive universe, exceptions are the
    constructors of [exn], and every function that touches the filesystem
    is a computation in a state-and-exception monad over [world].  Each
    definition below follows one function of the source, statement by
    statement, in the source's evaluation order. *)

From Stdlib Require Import ZArith Ascii String.
From stdpp Require Import gmap strings list fin_maps sorting pretty.

Open Scope string_scope.
Open Scope Z_scope.

(** ** Python values *)

(** The built-in classes the source names in [isinstance] tests or binds
    to a variable. *)
Inductive pyclass := ClsStr | ClsList | ClsTuple | ClsDict | ClsSet | ClsDefaultdict.

Unset Elimination Schemes.
Inductive pyval :=
| VNone
| VInt (n : Z)
| VStr (s : string)
| VList (xs : list pyval)
| VTuple (xs : list pyval)
| VDict (kvs : list (pyval * pyval))   (* insertion-ordered *)
| VDictValues (vs : list pyval)        (* the view [d.values()] *)
| VClass (c : pyclass)                 (* a class object such as [dict] *)
| VFunction (name : string)            (* a module-level function object *)
| VStream (path : string).             (* an open text stream on [path] *)
Set Elimination Schemes.

(** Exceptions.  The first group is what the interpreter and the libraries
    raise; the last four are the error taxonomy of the specification, which
    no statement of the source raises. *)
Inductive exn :=
| TypeError | KeyError | IndexError | NameError | UnboundLocalError
| AttributeError | FileNotFoundError | ValueError
| NotFoundError | UnsupportedFormatError | MissingFileError
| MalformedContentError.

Inductive result (A : Type) :=
| Ok (a : A)
| Raise (e : exn).
Arguments Ok {A} a.
Arguments Raise {A} e.

Definition rbind {A B} (r : result A) (f : A -> result B) : result B :=
  match r with Ok a => f a | Raise e => Raise e end.

Fixpoint rmap {A B} (f : A -> result B) (l : list A) : result (list B) :=
  match l with
  | [] => Ok []
  | x :: l' => rbind (f x) (fun y => rbind (rmap f l') (fun ys => Ok (y :: ys)))
  end.

(** Equality of values, as [==] decides it on hashable values (the only
    place it is used is the lookup of a key in a dictionary). *)
Fixpoint py_eqb (a b : pyval) : bool :=
  let fix all2 (xs ys : list pyval) : bool :=
    match xs, ys with
    | [], [] => true
    | x :: xs', y :: ys' => py_eqb x y && all2 xs' ys'
    | _, _ => false
    end in
  match a, b with
  | VNone, VNone => true
  | VInt x, VInt y => Z.eqb x y
  | VStr x, VStr y => String.eqb x y
  | VTuple xs, VTuple ys => all2 xs ys
  | VList xs, VList ys => all2 xs ys
  | VClass c, VClass d =>
      match c, d with
      | ClsStr, ClsStr | ClsList, ClsList | ClsTuple, ClsTuple
      | ClsDict, ClsDict | ClsSet, ClsSet | ClsDefaultdict, ClsDefaultdict => true
      | _, _ => false
      end
  | VFunction f, VFunction g => String.eqb f g
  | VStream p, VStream q => String.eqb p q
  | _, _ => false
  end.

(** Lists and dictionaries are unhashable; a tuple is hashable when its
    elements are. *)
Fixpoint hashable (v : pyval) : bool :=
  match v with
  | VList _ | VDict _ => false
  | VTuple xs => forallb hashable xs
  | _ => true
  end.

Fixpoint assoc {V} (k : pyval) (d : list (pyval * V)) : option V :=
  match d with
  | [] => None
  | (k', v) :: d' => if py_eqb k' k then Some v else assoc k d'
  end.

(** [d[k]] on a dictionary whose values are of type [V]. *)
Definition dict_getitem {V} (d : list (pyval * V)) (k : pyval) : result V :=
  if hashable k then
    match assoc k d with
    | Some v => Ok v
    | None => Raise KeyError
    end
  else Raise TypeError.

(** [l[i]] on a sequence: a negative index counts from the end. *)
Definition seq_getitem {A} (l : list A) (i : Z) : result A :=
  let n := Z.of_nat (length l) in
  let j := if i <? 0 then i + n else i in
  if (j <? 0) || (n <=? j) then Raise IndexError
  else match l !! Z.to_nat j with
       | Some x => Ok x
       | None => Raise IndexError
       end.

(** [obj[key]].  A string is a sequence of characters of one byte, which
    is what Python's code points are on ASCII text. *)
Definition py_getitem (obj key : pyval) : result pyval :=
  match obj with
  | VDict kvs => dict_getitem kvs key
  | VList xs | VTuple xs =>
      match key with
      | VInt i => seq_getitem xs i
      | _ => Raise TypeError
      end
  | VStr s =>
      match key with
      | VInt i =>
          rbind (seq_getitem (String.list_ascii_of_string s) i)
                (fun c => Ok (VStr (String c EmptyString)))
      | _ => Raise TypeError
      end
  | VClass _ => Ok obj           (* a generic alias of the class *)
  | _ => Raise TypeError         (* e.g. a function is not subscriptable *)
  end.

(** The elements a [for] loop or a comprehension draws from a value. *)
Definition py_iter (v : pyval) : result (list pyval) :=
  match v with
  | VList xs | VTuple xs | VDictValues xs => Ok xs
  | VDict kvs => Ok (kvs.*1)
  | VStr s => Ok ((fun c => VStr (String c EmptyString)) <$> String.list_ascii_of_string s)
  | _ => Raise TypeError
  end.

Definition py_isinstance (v : pyval) (c : pyclass) : bool :=
  match v, c with
  | VStr _, ClsStr | VList _, ClsList | VTuple _, ClsTuple | VDict _, ClsDict => true
  | _, _ => false
  end.

(** [a < b]: defined between two integers and between two strings. *)
Definition py_lt (a b : pyval) : result bool :=
  match a, b with
  | VInt x, VInt y => Ok (x <? y)
  | VStr x, VStr y => Ok (String.ltb x y)
  | _, _ => Raise TypeError
  end.

(** ** [sorted] *)

(** [sorted(xs, key=f)] computes every key first, then sorts stably using
    only [<] on the keys.  The stable sort is an insertion of each element
    in front of the first element of the sorted tail that is not smaller. *)
Section Sorted.
Context {K A : Type} (ltb : K -> K -> bool).

Fixpoint insert_keyed (x : K * A) (l : list (K * A)) : list (K * A) :=
  match l with
  | [] => [x]
  | y :: l' => if ltb y.1 x.1 then y :: insert_keyed x l' else x :: y :: l'
  end.

Fixpoint sort_keyed (l : list (K * A)) : list (K * A) :=
  match l with
  | [] => []
  | x :: l' => insert_keyed x (sort_keyed l')
  end.
End Sorted.

(** Keys of one kind (all integers, or all strings) are mutually
    comparable; any other mixture makes a comparison raise [TypeError] as
    soon as two elements are compared.  Keys that are lists or tuples,
    which Python orders element by element, are treated like a mixture. *)
Definition key_int (v : pyval) : option Z :=
  match v with VInt n => Some n | _ => None end.
Definition key_str (v : pyval) : option string :=
  match v with VStr s => Some s | _ => None end.

Definition py_sorted_keyed {A} (l : list (pyval * A)) : result (list A) :=
  match l with
  | [] => Ok []
  | [x] => Ok [x.2]
  | _ =>
      match mapM (fun x => k ← key_int x.1; Some (k, x.2)) l with
      | Some zl => Ok ((sort_keyed Z.ltb zl).*2)
      | None =>
          match mapM (fun x => k ← key_str x.1; Some (k, x.2)) l with
          | Some sl => Ok ((sort_keyed String.ltb sl).*2)
          | None => Raise TypeError
          end
      end
  end.

(** ** The filesystem and the monad of effects *)

Record file := File { mtime : Z; text : string }.

(** The regular files, by path, and [clock], the time a write would
    stamp.  Directories, permissions and links are not part of the world:
    a path outside the map stands for a path that does not exist in a
    directory that does. *)
Record world := World { files : gmap string file; clock : Z }.

Definition M (A : Type) : Type := world -> result A * world.

Definition ret {A} (a : A) : M A := fun w => (Ok a, w).
Definition raise {A} (e : exn) : M A := fun w => (Raise e, w).
Definition bind {A B} (m : M A) (f : A -> M B) : M B := fun w =>
  match m w with
  | (Ok a, w') => f a w'
  | (Raise e, w') => (Raise e, w')
  end.
Definition lift {A} (r : result A) : M A := fun w => (r, w).

Notation "'let!' x ':=' c 'in' k" := (bind c (fun x => k))
  (at level 10, x name, c at level 200, k at level 200,
   format "'[v' 'let!'  x  :=  c  'in'  '/' k ']'").

Fixpoint mapM_ {A B} (f : A -> M B) (l : list A) : M (list B) :=
  match l with
  | [] => ret []
  | x :: l' => let! y := f x in let! ys := mapM_ f l' in ret (y :: ys)
  end.

(** *** Primitive file operations

    Of the ways in which the operating system can refuse a path the
    primitives know one, the missing file: a path outside the map is a
    path that does not exist, in a directory that does. *)

Definition os_path_getmtime (name : string) : M Z := fun w =>
  match files w !! name with
  | Some f => (Ok (mtime f), w)
  | None => (Raise FileNotFoundError, w)
  end.

Definition os_path_exists (name : string) : M bool := fun w =>
  (Ok (bool_decide (is_Some (files w !! name))), w).

(** [open(name, *args)]: the first extra argument is the mode, ['r'] by
    default.  Opening for writing creates or truncates the file, in a
    directory that exists. *)
Definition py_open (name : string) (args : list pyval) : M pyval := fun w =>
  match args with
  | [] | VStr "r" :: _ =>
      match files w !! name with
      | Some _ => (Ok (VStream name), w)
      | None => (Raise FileNotFoundError, w)
      end
  | VStr "w" :: _ =>
      (Ok (VStream name),
       World (<[name := File (clock w) ""]> (files w)) (clock w))
  | VStr _ :: _ => (Raise ValueError, w)
  | _ => (Raise TypeError, w)
  end.

Definition stream_read (s : pyval) : M string := fun w =>
  match s with
  | VStream name =>
      match files w !! name with
      | Some f => (Ok (text f), w)
      | None => (Raise ValueError, w)
      end
  | _ => (Raise AttributeError, w)
  end.

Definition stream_write (s : pyval) (t : string) : M unit := fun w =>
  match s with
  | VStream name =>
      let old := default "" (text <$> files w !! name) in
      (Ok tt, World (<[name := File (clock w) (String.append old t)]> (files w)) (clock w))
  | _ => (Raise AttributeError, w)
  end.

(** *** Calling a library function

    A call binds its arguments to the callee's parameters before the body
    runs: a missing required parameter, an unknown keyword or a surplus
    positional argument is a [TypeError]. *)
Record signature := Sig {
  required : list string;     (* parameters without default, in order *)
  optional : list string;     (* parameters with a default *)
  var_keyword : bool          (* whether the callee takes [**kwds] *)
}.

Definition binds (sg : signature) (npos : nat) (kws : list string) : bool :=
  let params := (required sg ++ optional sg)%list in
  let by_position := take npos params in
  bool_decide (npos ≤ length params)%nat
  && forallb (fun k => bool_decide (k ∉ by_position)
                       && (var_keyword sg || bool_decide (k ∈ params))) kws
  && forallb (fun p => bool_decide (p ∈ by_position) || bool_decide (p ∈ kws))
             (required sg).


Fixpoint kwarg (name : string) (kwargs : list (string * pyval)) : option pyval :=
  match kwargs with
  | [] => None
  | (k, v) :: kwargs' => if String.eqb k name then Some v else kwarg name kwargs'
  end.

(** The argument bound to the parameter [name], which is number [pos]. *)
Definition param (pos : nat) (name : string)
    (args : list pyval) (kwargs : list (string * pyval)) : option pyval :=
  match args !! pos with
  | Some v => Some v
  | None => kwarg name kwargs
  end.

(** A name of the module's global scope: the module imports [defaultdict],
    [csv], [glob], [json], [os] and [yaml] and defines its functions and
    the two registries. *)
Definition module_globals : list string :=
  ["defaultdict"; "csv"; "glob"; "json"; "os"; "yaml";
   "_expand"; "open_for_read"; "open_for_write"; "read_csv";
   "default_read_csv"; "write_csv"; "default_write_csv"; "read_json";
   "write_json"; "read_yaml"; "write_yaml"; "READERS"; "WRITERS"; "load";
   "save"; "function_cached_with_file"; "modified";
   "in_modification_order"; "most_recently_modified"; "combined"].

Definition load_global (name : string) : M unit :=
  if bool_decide (name ∈ module_globals) then ret tt else raise NameError.

(** A local variable is unbound until its first assignment. *)
Definition load_local (v : option pyval) : M pyval :=
  match v with
  | Some x => ret x
  | None => raise UnboundLocalError
  end.

(** ** [os.path] *)

Fixpoint rfind_from (c : ascii) (s : string) (i acc : Z) : Z :=
  match s with
  | EmptyString => acc
  | String a s' => rfind_from c s' (i + 1) (if Ascii.eqb a c then i else acc)
  end.

(** [s.rfind(c)]: the last index of [c] in [s], or [-1]. *)
Definition rfind (c : ascii) (s : string) : Z := rfind_from c s 0 (-1).

Definition slice_to (s : string) (i : Z) : string :=
  String.substring 0 (Z.to_nat i) s.
Definition slice_from (s : string) (i : Z) : string :=
  String.substring (Z.to_nat i) (String.length s - Z.to_nat i) s.

(** The loop of [genericpath._splitext]: is there a character other than
    a dot among the [n] characters of [p] from index [i] on? *)
Fixpoint has_non_dot (p : string) (i : nat) (n : nat) : bool :=
  match n with
  | O => false
  | S n' =>
      match String.get i p with
      | Some c => if Ascii.eqb c "." then has_non_dot p (S i) n' else true
      | None => true
      end
  end.

(** [os.path.splitext] of [posixpath]: the extension starts at the last
    dot of the last path component, leading dots of the component aside. *)
Definition splitext (p : string) : string * string :=
  let sepIndex := rfind "/" p in
  let dotIndex := rfind "." p in
  if (sepIndex <? dotIndex)
     && has_non_dot p (Z.to_nat (sepIndex + 1)) (Z.to_nat (dotIndex - (sepIndex + 1)))
  then (slice_to p dotIndex, slice_from p dotIndex)
  else (p, "").

(** The value [os.path.splitext(p)] is a 2-tuple. *)
Definition os_path_splitext (p : string) : pyval :=
  VTuple [VStr (splitext p).1; VStr (splitext p).2].

Fixpoint dropwhile_eq (c : ascii) (l : list ascii) : list ascii :=
  match l with
  | a :: l' => if Ascii.eqb a c then dropwhile_eq c l' else l
  | [] => []
  end.

Definition rstrip (c : ascii) (s : string) : string :=
  String.string_of_list_ascii
    (reverse (dropwhile_eq c (reverse (String.list_ascii_of_string s)))).

Definition all_chars (c : ascii) (s : string) : bool :=
  forallb (Ascii.eqb c) (String.list_ascii_of_string s).

(** [os.path.dirname] of [posixpath]. *)
Definition os_path_dirname (p : string) : string :=
  let i := rfind "/" p + 1 in
  let head := slice_to p i in
  if negb (String.eqb head "") && negb (all_chars "/" head)
  then rstrip "/" head else head.


(** ** The libraries behind the module

    What the source takes from [os.path], [glob], [csv], [json] and [yaml]
    and this development does not spell out: path expansion, pattern
    matching against the filesystem and the three codecs. *)
Record platform := Platform {
  expanduser : string -> string;
  expandvars : string -> string;
  glob_glob : world -> string -> list string;
  csv_rows : string -> result (list (list string));   (* [csv.reader] *)
  csv_dict_rows : string -> result (list pyval);      (* [csv.DictReader] *)
  csv_line : list pyval -> string;                    (* one written record *)
  json_loads : string -> result pyval;
  json_dumps : pyval -> result string;
  yaml_loads : string -> result pyval;
  yaml_dumps : pyval -> result string
}.

(** A [csv] writer object: its stream and, for a [DictWriter], its field
    names. *)
Record csv_writer_obj := CsvWriter { cw_stream : pyval; cw_fieldnames : option (list pyval) }.

Definition py_truth (v : pyval) : bool :=
  match v with
  | VNone | VInt 0 | VStr "" | VList [] | VTuple [] | VDict [] | VDictValues [] => false
  | _ => true
  end.

(** [set(v)] as a duplicate-free list; the elements must be hashable. *)
Fixpoint dedup_py (l : list pyval) : list pyval :=
  match l with
  | [] => []
  | x :: l' => if existsb (py_eqb x) l' then dedup_py l' else x :: dedup_py l'
  end.

Definition py_set (v : pyval) : result (list pyval) :=
  rbind (py_iter v) (fun xs =>
    if forallb hashable xs then Ok (dedup_py xs) else Raise TypeError).

Definition set_difference (a b : list pyval) : list pyval :=
  filter (fun x => negb (existsb (py_eqb x) b)) a.

(** [row.keys()]: only a dictionary has the method. *)
Definition py_keys (row : pyval) : result pyval :=
  match row with
  | VDict kvs => Ok (VList (kvs.*1))
  | _ => Raise AttributeError
  end.

Definition py_values (d : pyval) : result pyval :=
  match d with
  | VDict kvs => Ok (VDictValues (kvs.*2))
  | _ => Raise AttributeError
  end.

(** [sorted(xs)] and [sorted(xs, key=lambda row: row[column])]. *)
Definition py_sorted (xs : list pyval) : result (list pyval) :=
  py_sorted_keyed (zip xs xs).

Definition py_sorted_by_item (column : pyval) (xs : list pyval) : result (list pyval) :=
  rbind (rmap (fun row => py_getitem row column) xs) (fun keys =>
    py_sorted_keyed (zip keys xs)).

Section Storage.
Variable P : platform.

(** *** Library calls *)

Definition glob (pattern : string) : M (list string) := fun w =>
  (Ok (glob_glob P w pattern), w).

(** [os.makedirs(name, mode=0o777, exist_ok=False)].  Directories are not
    part of [world], so a well-formed call has nothing to do. *)
Definition os_makedirs (args : list pyval) (kwargs : list (string * pyval)) : M unit :=
  if binds (Sig ["name"] ["mode"; "exist_ok"] false) (length args) (kwargs.*1)
  then ret tt else raise TypeError.

(** [csv.DictWriter(f, fieldnames, ..., **kwds)] and [csv.writer(f, ...)]. *)
Definition csv_DictWriter (args : list pyval) (kwargs : list (string * pyval))
    : M csv_writer_obj :=
  match param 0 "f" args kwargs, param 1 "fieldnames" args kwargs with
  | Some f, Some names =>
      let! fields := lift (py_iter names) in ret (CsvWriter f (Some fields))
  | _, _ => raise TypeError
  end.

Definition csv_writer (args : list pyval) : M csv_writer_obj :=
  match args with
  | f :: _ => ret (CsvWriter f None)
  | [] => raise TypeError
  end.

Definition writer_writeheader (wr : csv_writer_obj) : M unit :=
  match cw_fieldnames wr with
  | Some fields => stream_write (cw_stream wr) (csv_line P fields)
  | None => raise AttributeError
  end.

(** A [DictWriter] writes the row's value for each field, the empty
    string for a missing one, and refuses a row with a key that is not
    a field; a plain writer writes the row's elements. *)
Definition writer_writerow (wr : csv_writer_obj) (row : pyval) : M unit :=
  match cw_fieldnames wr with
  | Some fields =>
      let! keys := lift (rbind (py_keys row) py_iter) in
      if forallb (fun k => existsb (py_eqb k) fields) keys then
        let cells := (fun f => match py_getitem row f with
                               | Ok v => v
                               | Raise _ => VStr ""
                               end) <$> fields in
        stream_write (cw_stream wr) (csv_line P cells)
      else raise ValueError
  | None =>
      let! cells := lift (py_iter row) in
      stream_write (cw_stream wr) (csv_line P cells)
  end.

(** [json.load(fp)] and [json.dump(obj, fp, ...)]. *)
Definition json_load (fp : pyval) : M pyval :=
  let! t := stream_read fp in lift (json_loads P t).

Definition json_dump (args : list pyval) (kwargs : list (string * pyval)) : M unit :=
  match param 0 "obj" args kwargs, param 1 "fp" args kwargs with
  | Some obj, Some fp =>
      let! t := lift (json_dumps P obj) in stream_write fp t
  | _, _ => raise TypeError
  end.

(** [yaml.safe_load(stream)] and [yaml.dump(data, stream=None, ...)]:
    without a stream [dump] returns the document as a string, and it
    cannot represent an open stream. *)
Definition yaml_safe_load (stream : pyval) : M pyval :=
  let! t := stream_read stream in lift (yaml_loads P t).

Definition yaml_dump (args : list pyval) (kwargs : list (string * pyval)) : M pyval :=
  match param 0 "data" args kwargs with
  | Some (VStream _) => raise TypeError
  | Some data =>
      let! t := lift (yaml_dumps P data) in
      match param 1 "stream" args kwargs with
      | Some stream => let! _ := stream_write stream t in ret VNone
      | None => ret (VStr t)
      end
  | None => raise TypeError
  end.

(** An attribute of the [yaml] package, called. *)
Definition yaml_call (name : string) (args : list pyval)
    (kwargs : list (string * pyval)) : M pyval :=
  if String.eqb name "safe_load" then
    match param 0 "stream" args kwargs with
    | Some stream => yaml_safe_load stream
    | None => raise TypeError
    end
  else if String.eqb name "dump" then yaml_dump args kwargs
  else raise AttributeError.

(** [target.append(x)] on a value obtained by subscription. *)
Definition list_append (target x : pyval) : M unit :=
  match target with
  | VList _ => ret tt
  | _ => raise AttributeError
  end.

Fixpoint dict_setitem (kvs : list (pyval * pyval)) (k v : pyval) : list (pyval * pyval) :=
  match kvs with
  | [] => [(k, v)]
  | (k', v') :: kvs' =>
      if py_eqb k' k then (k', v) :: kvs' else (k', v') :: dict_setitem kvs' k v
  end.

(** The dictionary a comprehension builds from its key-value pairs. *)
Definition dict_from_items (items : list (pyval * pyval)) : result pyval :=
  if forallb (fun kv => hashable kv.1) items
  then Ok (VDict (foldl (fun d kv => dict_setitem d kv.1 kv.2) [] items))
  else Raise TypeError.

(** *** The module, function by function *)

Definition _expand (filename : string) : string :=
  expandvars P (expanduser P filename).

Definition open_for_read (filename : string) (args : list pyval) : M pyval :=
  py_open (_expand filename) args.

(** The keyword passed to [os.makedirs] is spelt [exists_ok] in the
    source; [True] is the integer 1. *)
Definition open_for_write (filename : string) (args : list pyval) : M pyval :=
  let full_name := _expand filename in
  let! _ := os_makedirs [VStr (os_path_dirname full_name)] [("exists_ok", VInt 1)] in
  py_open full_name (VStr "w" :: args).

(** [result_type] and [row_type] are tested with [isinstance] against
    [dict], [tuple] and [set]; on the other path the local [result] is
    read before any assignment to it. *)
Definition read_csv (filename : string)
    (result_type row_type key_column : pyval) : M pyval :=
  let! instream := open_for_read filename [] in
  let! t := stream_read instream in
  let! rows := lift (
    if py_isinstance row_type ClsDict then csv_dict_rows P t
    else if py_isinstance row_type ClsTuple then
      rbind (csv_rows P t) (fun rs => Ok ((fun r => VTuple (VStr <$> r)) <$> rs))
    else
      rbind (csv_rows P t) (fun rs => Ok ((fun r => VList (VStr <$> r)) <$> rs))) in
  if py_isinstance result_type ClsSet then
    let result := VClass ClsDefaultdict in
    let! _ := mapM_ (fun row =>
                let! k := lift (py_getitem row key_column) in
                let! group := lift (py_getitem result k) in
                list_append group row) rows in
    ret result
  else
    let! result := load_local None in
    if py_isinstance result ClsDict then
      let! items := mapM_ (fun row =>
                      let! k := lift (py_getitem row key_column) in
                      ret (k, row)) rows in
      lift (dict_from_items items)
    else ret (VList rows).

Definition default_read_csv (filename : string) : M pyval :=
  read_csv filename (VClass ClsList) (VClass ClsDict) (VStr "Date").

(** The [fieldnames] argument of the [DictWriter]: the one-element list
    [[sort_column]] followed by the sorted difference of two sets, the
    union of [set(row.keys())] over the rows and [set(sort_column)]. *)
Definition fieldnames (sort_column rows : pyval) : result (list pyval) :=
  rbind (py_iter rows) (fun items =>
  rbind (rmap (fun row => rbind (py_keys row) py_set) items) (fun key_sets =>
  let all_keys := dedup_py (concat key_sets) in
  rbind (py_set sort_column) (fun column_set =>
  rbind (py_sorted (set_difference all_keys column_set)) (fun rest =>
  Ok (sort_column :: rest))))).

(** The statement of lines 85-86, [headers = ( else None)], is not
    well-formed and binds a name the function never reads; it has no
    counterpart here. *)
Definition write_csv (filename : string) (data : pyval)
    (flatten : bool) (sort_column : pyval) : M pyval :=
  let! rows_or_groups :=
    lift (if py_isinstance data ClsDict then py_values data else Ok data) in
  let! rows :=
    if flatten then
      let! _ := load_global "operator" in
      let! groups := lift (py_iter rows_or_groups) in
      let! lists := lift (rmap py_iter groups) in
      match lists with
      | [l] => ret (VList l)
      | _ => raise TypeError
      end
    else ret rows_or_groups in
  let! rows :=
    if py_truth sort_column then
      let! items := lift (py_iter rows) in
      let! ordered := lift (py_sorted_by_item sort_column items) in
      ret (VList ordered)
    else ret rows in
  let! outstream := open_for_write filename [] in
  let! first := lift (py_getitem rows (VInt 0)) in
  let rows_are_dicts := py_isinstance first ClsDict in
  let! writer :=
    if rows_are_dicts then
      let! names := lift (fieldnames sort_column rows) in
      csv_DictWriter [] [("fieldnames", VList names)]
    else csv_writer [] in
  let! _ := if rows_are_dicts then writer_writeheader writer else ret tt in
  let! items := lift (py_iter rows) in
  let! _ := mapM_ (writer_writerow writer) items in
  ret data.

Definition default_write_csv (filename : string) (data : pyval) : M pyval :=
  write_csv filename data false (VStr "Date").

Definition read_json (filename : string) : M pyval :=
  let! instream := open_for_read filename [] in
  json_load instream.

Definition write_json (filename : string) (data : pyval) : M pyval :=
  let! outstream := open_for_read filename [VStr "w"] in
  let! _ := json_dump [outstream] [] in
  ret data.

Definition read_yaml (filename : string) : M pyval :=
  let! instream := open_for_read filename [] in
  yaml_call "safeload" [instream] [].

Definition write_yaml (filename : string) (data : pyval) : M pyval :=
  let! outstream := open_for_read filename [VStr "w"] in
  let! _ := yaml_call "dump" [outstream] [] in
  ret data.

Definition READERS : list (pyval * (string -> M pyval)) :=
  [ (VStr "csv", default_read_csv);
    (VStr "json", read_json);
    (VStr "yaml", read_yaml) ].

Definition WRITERS : list (pyval * (string -> pyval -> M pyval)) :=
  [ (VStr "csv", default_write_csv);
    (VStr "json", write_json);
    (VStr "yaml", write_yaml) ].

(** The registry is subscripted with the whole value of
    [os.path.splitext(filename)]. *)
Definition load (filename : string) : M pyval :=
  let! reader := lift (dict_getitem READERS (os_path_splitext filename)) in
  reader filename.

Definition save (filename : string) (data : pyval) : M pyval :=
  let! writer := lift (dict_getitem WRITERS (os_path_splitext filename)) in
  writer filename data.

Definition function_cached_with_file (function : M pyval) (filename : string)
    : M pyval :=
  let! present := os_path_exists filename in
  if present then load filename
  else let! contents := function in save filename contents.

Definition modified (filename : string) : M Z :=
  os_path_getmtime filename.

Definition in_modification_order (filenames : list string) : M (list string) :=
  let! keys := mapM_ modified filenames in
  ret ((sort_keyed Z.ltb (zip keys filenames)).*2).

(** The argument is a glob pattern (a [str]) or a collection of names. *)
Inductive filenames_arg :=
| Pattern (pattern : string)
| Names (names : list string).

Definition most_recently_modified (filenames : filenames_arg) : M string :=
  let! filenames :=
    match filenames with
    | Pattern pattern => glob pattern
    | Names names => ret names
    end in
  let! ordered := in_modification_order filenames in
  lift (seq_getitem ordered (-1)).

(** [origins] binds each origin filename to its row converter, in the
    dictionary's order; iterating the dictionary itself yields its keys.
    The inner comprehension draws its entries from [load[origin]], the
    function object [load] subscripted. *)
Definition combined (destination : string)
    (combiner : list (list pyval) -> result pyval)
    (origins : list (string * (pyval -> result pyval))) : M pyval :=
  let! destination_time := modified destination in
  let! newest := most_recently_modified (Names (origins.*1)) in
  let! origin_time := modified newest in
  if destination_time <? origin_time then
    let! contents :=
      mapM_ (fun '(origin, converter) =>
               let! entries :=
                 lift (rbind (py_getitem (VFunction "load") (VStr origin)) py_iter) in
               lift (rmap converter entries)) origins in
    let! result := lift (combiner contents) in
    save destination result
  else load destination.

End Storage.

(** ** The combiner over the bindings of [load] and [save]

    [combined] names [load] and [save] as globals of the module, and
    Python looks a global up each time the call runs.  [combined_with] is
    the body of [combined] over whatever the two names are bound to:
    [load_item origin] is the evaluation of [load[origin]],
    [load_call destination] that of [load(destination)] and
    [save_call destination result] that of [save(destination, result)].
    [regenerated] is the argument of [save]: the comprehension over the
    origins and the call of the combiner. *)
Section CombinedWith.
Variable P : platform.
Variable load_item : string -> M pyval.
Variable load_call : string -> M pyval.
Variable save_call : string -> pyval -> M pyval.

Definition regenerated (combiner : list (list pyval) -> result pyval)
    (origins : list (string * (pyval -> result pyval))) : M pyval :=
  let! contents :=
    mapM_ (fun '(origin, converter) =>
             let! source := load_item origin in
             let! entries := lift (py_iter source) in
             lift (rmap converter entries)) origins in
  lift (combiner contents).

Definition combined_with (destination : string)
    (combiner : list (list pyval) -> result pyval)
    (origins : list (string * (pyval -> result pyval))) : M pyval :=
  let! destination_time := modified destination in
  let! newest := most_recently_modified P (Names (origins.*1)) in
  let! origin_time := modified newest in
  if destination_time <? origin_time then
    let! result := regenerated combiner origins in
    save_call destination result
  else load_call destination.

End CombinedWith.

(** What [load[origin]] is in the module as it stands, where [load] is
    bound to a function. *)
Definition module_load_item (origin : string) : M pyval :=
  lift (py_getitem (VFunction "load") (VStr origin)).

(** ** A concrete platform for the examples

    One directory of files, an empty environment, and the invoking user's
    home directory [/home/user] taken from the password database. *)

(** [posixpath.expanduser] for the invoking user: a leading [~] that is
    the whole first component becomes the home directory. *)
Definition user_expanduser (home path : string) : string :=
  match path with
  | String "~" rest =>
      match rest with
      | EmptyString | String "/" _ =>
          let expanded := String.append (rstrip "/" home) rest in
          if String.eqb expanded "" then "/" else expanded
      | _ => path                     (* [~name]: no such user *)
      end
  | _ => path
  end.

(** Shell-style matching of one path with [*] and [?], for patterns
    without bracket classes: neither wildcard matches a separator, nor a
    dot at the start of a component. *)
Fixpoint wildcard (start : bool) (pattern name : list ascii) : bool :=
  match pattern with
  | [] => match name with [] => true | _ => false end
  | p :: pattern' =>
      if Ascii.eqb p "*" then
        (fix skip (start : bool) (rest : list ascii) : bool :=
           wildcard start pattern' rest
           || match rest with
              | [] => false
              | c :: rest' =>
                  negb (Ascii.eqb c "/") && negb (start && Ascii.eqb c ".")
                  && skip false rest'
              end) start name
      else
        match name with
        | [] => false
        | c :: name' =>
            (if Ascii.eqb p "?"
             then negb (Ascii.eqb c "/") && negb (start && Ascii.eqb c ".")
             else Ascii.eqb p c)
            && wildcard (Ascii.eqb c "/") pattern' name'
        end
  end.

Definition directory_glob (w : world) (pattern : string) : list string :=
  filter (fun name => wildcard true (String.list_ascii_of_string pattern)
                               (String.list_ascii_of_string name) = true)
         ((map_to_list (files w)).*1).

(** Codecs for the documents of the examples.  A JSON or YAML document is
    one decimal integer, without leading zeros; any other text is refused
    by the decoder, as [json.loads] refuses text that is not JSON. *)
Fixpoint digits_value (acc : Z) (l : list ascii) : option Z :=
  match l with
  | [] => Some acc
  | c :: l' =>
      let d := Z.of_nat (nat_of_ascii c) - 48 in
      if (0 <=? d) && (d <=? 9) then digits_value (10 * acc + d) l' else None
  end.

Definition natural_value (l : list ascii) : option Z :=
  match l with
  | [] => None
  | [c] => digits_value 0 [c]
  | c :: _ => if Ascii.eqb c "0" then None else digits_value 0 l
  end.

Definition bare_loads (t : string) : result pyval :=
  let value :=
    match String.list_ascii_of_string t with
    | c :: l => if Ascii.eqb c "-" then Z.opp <$> natural_value l
                else natural_value (c :: l)
    | [] => None
    end in
  match value with
  | Some n => Ok (VInt n)
  | None => Raise ValueError
  end.

Definition bare_dumps (v : pyval) : result string :=
  match v with VInt n => Ok (pretty n) | _ => Raise TypeError end.

(** [yaml.dump] ends the document of a bare scalar with a line of three
    dots. *)
Definition newline : string := String (ascii_of_nat 10) EmptyString.
Definition bare_yaml_dumps (v : pyval) : result string :=
  rbind (bare_dumps v) (fun t =>
    Ok (String.append t (String.append newline (String.append "..." newline)))).

(** CSV text without quotation marks or carriage returns: one record per
    line, fields separated by commas. *)
Fixpoint split_on (c : ascii) (l : list ascii) : list (list ascii) :=
  match l with
  | [] => [[]]
  | a :: l' =>
      if Ascii.eqb a c then [] :: split_on c l'
      else match split_on c l' with
           | field :: fields => (a :: field) :: fields
           | [] => [[a]]
           end
  end.

Definition plain_csv_rows (t : string) : result (list (list string)) :=
  let lines := split_on (ascii_of_nat 10) (String.list_ascii_of_string t) in
  let lines := match reverse lines with
               | [] :: earlier => reverse earlier
               | _ => lines
               end in
  Ok ((fun line => match line with
                   | [] => []
                   | _ => String.string_of_list_ascii <$> split_on "," line
                   end) <$> lines).

(** [csv.DictReader]: the first record names the fields; records of another
    length are outside what the examples hold. *)
Definition plain_csv_dict_rows (t : string) : result (list pyval) :=
  rbind (plain_csv_rows t) (fun rows =>
    match rows with
    | [] => Ok []
    | header :: records =>
        rmap (fun record =>
                if bool_decide (length record = length header)
                then Ok (VDict (zip (VStr <$> header) (VStr <$> record)))
                else Raise ValueError) (filter (fun r => r <> []) records)
    end).

Definition plain_csv_line (cells : list pyval) : string :=
  let cell v := match v with
                | VStr t => t
                | VInt n => pretty n
                | _ => ""
                end in
  String.append
    (foldr (fun c rest => if String.eqb rest "" then c
                          else String.append c (String.append "," rest))
           "" (cell <$> cells))
    (String.append (String (ascii_of_nat 13) EmptyString) newline).

Definition demo : platform :=
  {| expanduser := user_expanduser "/home/user";
     expandvars := fun path => path;
     glob_glob := directory_glob;
     csv_rows := plain_csv_rows;
     csv_dict_rows := plain_csv_dict_rows;
     csv_line := plain_csv_line;
     json_loads := bare_loads;
     json_dumps := bare_dumps;
     yaml_loads := bare_loads;
     yaml_dumps := bare_yaml_dumps |}.

Definition w_abc : world :=
  World (<["a" := File 1 "x"]> (<["b" := File 3 "y"]> (<["c" := File 2 "z"]> ∅))) 10.


Definition w_home : world :=
  World (<["/home/user/notes.json" := File 7 "seven"]> ∅) 10.

(** Two rows of a dated ledger, the later one first. *)
Definition ledger : pyval :=
  VList [ VDict [(VStr "Date", VStr "2024-02-01"); (VStr "Item", VStr "b")];
          VDict [(VStr "Date", VStr "2024-01-01"); (VStr "Item", VStr "a")] ].

(** ** Vocabulary of the statements *)

(** Order of two keyed elements by their keys. *)
Definition key_le {A} (x y : Z * A) : Prop := x.1 <= y.1.

(** The modification time of [filename] in [w], 0 for a missing file. *)
Definition stamp (w : world) (filename : string) : Z :=
  default 0 (mtime <$> files w !! filename).

(** A computation that leaves the world as it found it, whatever it
    returns or raises. *)
Definition read_only {A} (m : M A) : Prop := forall w, (m w).2 = w.

(** * Properties *)

(** ** The stable sort *)

Section SortFacts.
Context {A : Type}.
Implicit Types (x y : Z * A) (l : list (Z * A)).

Lemma insert_keyed_elem x y l :
  y ∈ insert_keyed Z.ltb x l <-> y = x \/ y ∈ l.
Proof.
  induction l as [|z l IH]; simpl.
  - rewrite list_elem_of_singleton, elem_of_nil. tauto.
  - destruct (z.1 <? x.1); rewrite ?elem_of_cons, ?IH; tauto.
Qed.

Lemma sort_keyed_elem y l : y ∈ sort_keyed Z.ltb l <-> y ∈ l.
Proof.
  induction l as [|z l IH]; simpl; [done|].
  rewrite insert_keyed_elem, elem_of_cons, IH. tauto.
Qed.

Lemma insert_keyed_sorted x l :
  StronglySorted key_le l -> StronglySorted key_le (insert_keyed Z.ltb x l).
Proof.
  induction 1 as [|z l Hl IH Hz]; simpl.
  - repeat constructor.
  - destruct (Z.ltb_spec z.1 x.1) as [Hlt|Hge].
    + constructor; [exact IH|].
      apply Forall_forall. intros y Hy.
      apply insert_keyed_elem in Hy as [->|Hy].
      * unfold key_le. lia.
      * rewrite Forall_forall in Hz. by apply Hz.
    + constructor; [by constructor|].
      constructor; [exact Hge|].
      eapply Forall_impl; [exact Hz|].
      unfold key_le. intros y Hy. lia.
Qed.

Lemma sort_keyed_sorted l : StronglySorted key_le (sort_keyed Z.ltb l).
Proof.
  induction l; simpl; [constructor|by apply insert_keyed_sorted].
Qed.

Lemma sorted_last_max l x :
  StronglySorted key_le l -> last l = Some x -> forall y, y ∈ l -> key_le y x.
Proof.
  induction 1 as [|z l Hl IH Hz]; simpl; [done|].
  intros Hlast y Hy. destruct l as [|z' l'].
  - simplify_eq/=. apply list_elem_of_singleton in Hy as ->. unfold key_le. lia.
  - apply elem_of_cons in Hy as [->|Hy]; [|by apply IH].
    rewrite Forall_forall in Hz. apply Hz.
    apply list_elem_of_lookup. rewrite last_lookup in Hlast.
    exists (length l'). exact Hlast.
Qed.
End SortFacts.

Lemma seq_getitem_last {A} (l : list A) (x : A) :
  last l = Some x -> seq_getitem l (-1) = Ok x.
Proof.
  intros Hlast. unfold seq_getitem.
  assert (0 < length l)%nat as Hlen.
  { destruct l; [done|simpl; lia]. }
  rewrite last_lookup in Hlast.
  replace (-1 <? 0) with true by done.
  destruct (Z.ltb_spec (-1 + Z.of_nat (length l)) 0); [lia|].
  destruct (Z.leb_spec (Z.of_nat (length l)) (-1 + Z.of_nat (length l))); [lia|].
  simpl. replace (Z.to_nat (-1 + Z.of_nat (length l))) with (pred (length l)) by lia.
  by rewrite Hlast.
Qed.

(** ** Computations that do not write *)

Lemma read_only_ret {A} (a : A) : read_only (ret a).
Proof. by intros w. Qed.

Lemma read_only_raise {A} (e : exn) : read_only (@raise A e).
Proof. by intros w. Qed.

Lemma read_only_lift {A} (r : result A) : read_only (lift r).
Proof. by intros w. Qed.

Lemma read_only_bind {A B} (m : M A) (f : A -> M B) :
  read_only m -> (forall a, read_only (f a)) -> read_only (bind m f).
Proof.
  intros Hm Hf w. unfold bind. specialize (Hm w).
  destruct (m w) as [[a|e] w1]; simpl in *; subst; [apply Hf|done].
Qed.

Lemma read_only_mapM {A B} (f : A -> M B) (l : list A) :
  (forall x, read_only (f x)) -> read_only (mapM_ f l).
Proof.
  intros Hf. induction l as [|x l IH]; simpl.
  - apply read_only_ret.
  - apply read_only_bind; [apply Hf|]. intros y.
    apply read_only_bind; [exact IH|]. intros ys. apply read_only_ret.
Qed.

Lemma read_only_getmtime filename : read_only (os_path_getmtime filename).
Proof. intros w. unfold os_path_getmtime. by destruct (files w !! filename). Qed.

Create HintDb read_only.
#[local] Hint Resolve read_only_ret read_only_raise read_only_lift
  read_only_getmtime : read_only.

Section Facts.
Variable P : platform.

(** *** The registries *)

Lemma READERS_splitext filename :
  dict_getitem (READERS P) (os_path_splitext filename) = Raise KeyError.
Proof. reflexivity. Qed.

Lemma WRITERS_splitext filename :
  dict_getitem (WRITERS P) (os_path_splitext filename) = Raise KeyError.
Proof. reflexivity. Qed.

Lemma load_KeyError filename w : load P filename w = (Raise KeyError, w).
Proof. reflexivity. Qed.

Lemma save_KeyError filename data w : save P filename data w = (Raise KeyError, w).
Proof. reflexivity. Qed.

(** *** Modification order *)

Lemma modified_found filename f w :
  files w !! filename = Some f -> modified filename w = (Ok (mtime f), w).
Proof. intros H. unfold modified, os_path_getmtime. by rewrite H. Qed.

Lemma stamp_found w filename f :
  files w !! filename = Some f -> stamp w filename = mtime f.
Proof. intros H. unfold stamp. by rewrite H. Qed.

Lemma mapM_modified names w :
  Forall (fun n => is_Some (files w !! n)) names ->
  mapM_ modified names w = (Ok (stamp w <$> names), w).
Proof.
  induction 1 as [|n names [f Hf] _ IH]; [done|].
  rewrite fmap_cons. simpl. unfold bind at 1.
  rewrite (modified_found n f w Hf). unfold bind at 1. rewrite IH.
  by rewrite (stamp_found w n f Hf).
Qed.

Lemma in_modification_order_found names w :
  Forall (fun n => is_Some (files w !! n)) names ->
  in_modification_order names w
  = (Ok ((sort_keyed Z.ltb (zip (stamp w <$> names) names)).*2), w).
Proof.
  intros H. unfold in_modification_order, bind. by rewrite mapM_modified.
Qed.

Lemma elem_of_zip_stamp w names k n :
  (k, n) ∈ zip (stamp w <$> names) names <-> k = stamp w n /\ n ∈ names.
Proof.
  induction names as [|m names IH]; simpl.
  - rewrite !elem_of_nil. tauto.
  - rewrite !elem_of_cons, IH. split.
    + intros [?|[? ?]]; simplify_eq; auto.
    + intros [-> [->|?]]; auto.
Qed.

Lemma read_only_in_modification_order names :
  read_only (in_modification_order names).
Proof.
  apply read_only_bind; [|auto with read_only].
  apply read_only_mapM. intros n. apply read_only_getmtime.
Qed.

Lemma read_only_most_recently_modified filenames :
  read_only (most_recently_modified P filenames).
Proof.
  apply read_only_bind.
  - destruct filenames; [by intros w|auto with read_only].
  - intros names. apply read_only_bind; [|auto with read_only].
    apply read_only_in_modification_order.
Qed.
End Facts.

Section Claims.
Variable P : platform.

Lemma open_for_write_TypeError filename args w :
  open_for_write P filename args w = (Raise TypeError, w).
Proof. reflexivity. Qed.

Lemma write_csv_raises filename data flatten sort_column w :
  exists e, write_csv P filename data flatten sort_column w = (Raise e, w).
Proof.
  unfold write_csv.
  destruct (if py_isinstance data ClsDict then py_values data else Ok data)
    as [rows_or_groups|e]; [|by eexists].
  unfold bind at 1; simpl.
  destruct flatten.
  - by eexists.
  - unfold bind at 1; simpl. destruct (py_truth sort_column).
    + unfold bind at 1 2; simpl.
      destruct (py_iter rows_or_groups) as [items|e]; simpl; [|by eexists].
      unfold bind at 1; simpl.
      destruct (py_sorted_by_item sort_column items) as [ordered|e]; simpl;
        by eexists.
    + by eexists.
Qed.

(** The most recently modified of a list of existing files. *)
Lemma most_recently_modified_found w names :
  names <> [] ->
  Forall (fun n => is_Some (files w !! n)) names ->
  exists best,
    most_recently_modified P (Names names) w = (Ok best, w)
    /\ best ∈ names
    /\ forall n, n ∈ names -> stamp w n <= stamp w best.
Proof.
  intros Hne Hall.
  pose (ordered := sort_keyed Z.ltb (zip (stamp w <$> names) names)).
  destruct (last ordered) as [[k best]|] eqn:Hlast.
  - assert ((k, best) ∈ ordered) as Hin.
    { apply list_elem_of_lookup. exists (pred (length ordered)).
      by rewrite <- last_lookup. }
    apply sort_keyed_elem, elem_of_zip_stamp in Hin as [-> Hbest].
    exists best. split; [|split; [done|]].
    + unfold most_recently_modified, bind, ret.
      rewrite in_modification_order_found by done.
      unfold lift. f_equal. apply seq_getitem_last.
      fold ordered. by rewrite fmap_last, Hlast.
    + intros n Hn.
      apply (sorted_last_max ordered (stamp w best, best) (sort_keyed_sorted _)
               Hlast (stamp w n, n)).
      by apply sort_keyed_elem, elem_of_zip_stamp.
  - apply last_None in Hlast. destruct names as [|n names]; [done|].
    assert ((stamp w n, n) ∈ ordered) as Hin.
    { apply sort_keyed_elem, elem_of_zip_stamp. split; [done|]. apply elem_of_cons; auto. }
    rewrite Hlast in Hin. by apply elem_of_nil in Hin.
Qed.

Lemma combined_read_only destination combiner origins :
  read_only (combined P destination combiner origins).
Proof.
  unfold combined, modified.
  apply read_only_bind; [auto with read_only|]. intros td.
  apply read_only_bind; [apply read_only_most_recently_modified|]. intros newest.
  apply read_only_bind; [auto with read_only|]. intros tn.
  destruct (td <? tn).
  - apply read_only_bind.
    + apply read_only_mapM. intros [origin converter].
      apply read_only_bind; auto with read_only.
    + intros contents. apply read_only_bind; [auto with read_only|].
      intros result w. by rewrite save_KeyError.
  - intros w. by rewrite load_KeyError.
Qed.

(** Both sides of the freshness test, for a destination and origins
    that exist. *)
Lemma combined_test destination combiner origins w fd :
  files w !! destination = Some fd ->
  origins <> [] ->
  Forall (fun n => is_Some (files w !! n)) origins.*1 ->
  exists newest,
    newest ∈ origins.*1
    /\ (forall o, o ∈ origins.*1 -> stamp w o <= stamp w newest)
    /\ combined P destination combiner origins w
       = (if mtime fd <? stamp w newest
          then let! contents :=
                 mapM_ (fun '(origin, converter) =>
                          let! entries :=
                            lift (rbind (py_getitem (VFunction "load") (VStr origin))
                                        py_iter) in
                          lift (rmap converter entries)) origins in
               let! result := lift (combiner contents) in
               save P destination result
          else load P destination) w.
Proof.
  intros Hd Hne Hall.
  destruct (most_recently_modified_found w origins.*1) as (newest & Hm & Hin & Hmax);
    [by destruct origins|done|].
  exists newest. split; [done|]. split; [done|].
  unfold combined. unfold bind at 1. rewrite (modified_found _ _ _ Hd).
  unfold bind at 1. rewrite Hm. unfold bind at 1.
  rewrite Forall_forall in Hall. destruct (Hall newest Hin) as [fn Hfn].
  by rewrite (modified_found _ _ _ Hfn), (stamp_found _ _ _ Hfn).
Qed.

(** C1 (the code departs from the claim).  For a destination older than
    the newest origin the claim has [combined] load and transform every
    origin, combine, save and return the result.  In the source the
    regeneration path subscripts the function [load] instead of calling
    it, so it raises [TypeError] at the first origin and writes
    nothing. *)
Theorem combined_stale_TypeError destination combiner origins w fd :
  files w !! destination = Some fd ->
  Forall (fun n => is_Some (files w !! n)) origins.*1 ->
  (exists o, o ∈ origins.*1 /\ mtime fd < stamp w o) ->
  combined P destination combiner origins w = (Raise TypeError, w).
Proof.
  intros Hd Hall (o & Ho & Hlt).
  assert (origins <> []) as Hne by (intros ->; by apply elem_of_nil in Ho).
  destruct (combined_test destination combiner origins w fd Hd Hne Hall)
    as (newest & _ & Hmax & ->).
  specialize (Hmax o Ho).
  destruct (Z.ltb_spec (mtime fd) (stamp w newest)); [|lia].
  destruct origins as [|[origin converter] origins]; [done|].
  reflexivity.
Qed.

(** C2 (the code departs from the claim).  For a destination that is not
    older than any origin the claim has [combined] return the decoded
    destination and write nothing.  In the source [load] subscripts the
    readers' registry with the pair that [os.path.splitext] returns, so
    this path raises [KeyError]; it does leave every file alone. *)
Theorem combined_fresh_KeyError destination combiner origins w fd :
  files w !! destination = Some fd ->
  origins <> [] ->
  Forall (fun n => is_Some (files w !! n)) origins.*1 ->
  (forall o, o ∈ origins.*1 -> stamp w o <= mtime fd) ->
  combined P destination combiner origins w = (Raise KeyError, w).
Proof.
  intros Hd Hne Hall Hfresh.
  destruct (combined_test destination combiner origins w fd Hd Hne Hall)
    as (newest & Hin & _ & ->).
  specialize (Hfresh newest Hin).
  destruct (Z.ltb_spec (mtime fd) (stamp w newest)); [lia|].
  apply load_KeyError.
Qed.

(** [combined] is its body at the module's own bindings. *)
Lemma combined_unfold destination combiner origins w :
  combined P destination combiner origins w
  = combined_with P module_load_item (load P) (save P)
      destination combiner origins w.
Proof.
  unfold combined, combined_with, regenerated.
  unfold bind at 1 7. destruct (modified destination w) as [[td|e] w1]; [|done].
  unfold bind at 1 6.
  destruct (most_recently_modified P (Names origins.*1) w1) as [[newest|e] w2]; [|done].
  unfold bind at 1 5. destruct (modified newest w2) as [[tn|e] w3]; [|done].
  destruct (td <? tn); [|done].
  destruct origins as [|[origin converter] origins]; reflexivity.
Qed.

(** The freshness test of [combined_with], for a destination older than
    some origin. *)
Lemma combined_with_stale load_item load_call save_call
    destination combiner origins w fd :
  files w !! destination = Some fd ->
  Forall (fun n => is_Some (files w !! n)) origins.*1 ->
  (exists o, o ∈ origins.*1 /\ mtime fd < stamp w o) ->
  combined_with P load_item load_call save_call destination combiner origins w
  = (let! result := regenerated load_item combiner origins in
     save_call destination result) w.
Proof.
  intros Hd Hall (o & Ho & Hlt).
  destruct (most_recently_modified_found w origins.*1) as (newest & Hm & Hin & Hmax);
    [by intros Hnil; rewrite Hnil in Ho; apply elem_of_nil in Ho|done|].
  unfold combined_with. unfold bind at 1. rewrite (modified_found _ _ _ Hd).
  unfold bind at 1. rewrite Hm. unfold bind at 1.
  rewrite Forall_forall in Hall. destruct (Hall newest Hin) as [fn Hfn].
  rewrite (modified_found _ _ _ Hfn).
  specialize (Hmax o Ho). rewrite (stamp_found _ _ _ Hfn) in Hmax.
  by destruct (Z.ltb_spec (mtime fd) (mtime fn)); [|lia].
Qed.

(** C3.  [combined] is its body at the module's bindings of [load] and
    [save].  On the regeneration path, whatever the two names are bound
    to: when loading or transforming an origin, or the combiner, raises,
    [combined] ends in that exception without running [save], so with
    loads that do not write every file, the destination included, is as
    it was; and [save] runs only once all of them have returned, on the
    combiner's result.  At the module's own bindings an invocation that
    ends in an exception leaves every file as it was. *)
Theorem combined_decide_then_act :
  (forall destination combiner origins w,
      combined P destination combiner origins w
      = combined_with P module_load_item (load P) (save P)
          destination combiner origins w)
  /\ (forall load_item load_call save_call destination combiner origins w fd e,
        files w !! destination = Some fd ->
        Forall (fun n => is_Some (files w !! n)) origins.*1 ->
        (exists o, o ∈ origins.*1 /\ mtime fd < stamp w o) ->
        (forall origin, read_only (load_item origin)) ->
        (regenerated load_item combiner origins w).1 = Raise e ->
        combined_with P load_item load_call save_call destination combiner origins w
        = (Raise e, w))
  /\ (forall load_item load_call save_call destination combiner origins w fd result w1,
        files w !! destination = Some fd ->
        Forall (fun n => is_Some (files w !! n)) origins.*1 ->
        (exists o, o ∈ origins.*1 /\ mtime fd < stamp w o) ->
        regenerated load_item combiner origins w = (Ok result, w1) ->
        combined_with P load_item load_call save_call destination combiner origins w
        = save_call destination result w1)
  /\ (forall destination combiner origins w e,
        (combined P destination combiner origins w).1 = Raise e ->
        (combined P destination combiner origins w).2 = w).
Proof.
  split; [exact combined_unfold|]. split; [|split].
  - intros load_item load_call save_call destination combiner origins w fd e
      Hd Hall Hstale Hpure Hfail.
    rewrite (combined_with_stale _ _ _ _ _ _ _ _ Hd Hall Hstale). unfold bind.
    assert (read_only (regenerated load_item combiner origins)) as Hro.
    { apply read_only_bind; [|auto with read_only].
      apply read_only_mapM. intros [origin converter].
      apply read_only_bind; [apply Hpure|]. intros source.
      apply read_only_bind; auto with read_only. }
    specialize (Hro w).
    destruct (regenerated load_item combiner origins w) as [[result|e'] w1];
      simpl in *; by simplify_eq.
  - intros load_item load_call save_call destination combiner origins w fd result w1
      Hd Hall Hstale Hdone.
    rewrite (combined_with_stale _ _ _ _ _ _ _ _ Hd Hall Hstale). unfold bind.
    by rewrite Hdone.
  - intros destination combiner origins w e _. apply combined_read_only.
Qed.

(** C4.  Over a non-empty collection of existing files
    [most_recently_modified] returns a member whose modification time is
    maximal; over [a] (time 1), [b] (time 3), [c] (time 2) it returns
    [b]. *)
Theorem most_recently_modified_maximal :
  (forall (w : world) (names : list string),
      names <> [] ->
      Forall (fun n => is_Some (files w !! n)) names ->
      exists best fbest,
        most_recently_modified P (Names names) w = (Ok best, w)
        /\ best ∈ names
        /\ files w !! best = Some fbest
        /\ forall n fn, n ∈ names -> files w !! n = Some fn ->
                        mtime fn <= mtime fbest)
  /\ most_recently_modified P (Names ["a"; "b"; "c"]) w_abc = (Ok "b", w_abc).
Proof.
  split; [|reflexivity].
  intros w names Hne Hall.
  destruct (most_recently_modified_found w names Hne Hall) as (best & Hm & Hin & Hmax).
  pose proof Hall as Hall'. rewrite Forall_forall in Hall'.
  destruct (Hall' best Hin) as [fbest Hfb].
  exists best, fbest. repeat split; try done.
  intros n fn Hn Hfn. specialize (Hmax n Hn).
  by rewrite (stamp_found _ _ _ Hfn), (stamp_found _ _ _ Hfb) in Hmax.
Qed.

(** C5 (amended).  For a glob pattern that matches no file
    [most_recently_modified] raises the built-in [IndexError], from
    taking the last element of an empty list; the module has no
    dedicated error for an empty match. *)
Theorem most_recently_modified_no_match w pattern :
  glob_glob P w pattern = [] ->
  most_recently_modified P (Pattern pattern) w = (Raise IndexError, w).
Proof.
  intros Hglob. unfold most_recently_modified, bind, glob.
  by rewrite Hglob.
Qed.

(** C6 (amended).  For a path whose extension is none of csv, json and
    yaml, [load] and [save] fail with the built-in [KeyError] of the
    registry lookup, not with a dedicated error of the module, and with
    no default reader or writer; no file is touched. *)
Theorem unrecognized_extension_KeyError filename data w :
  (splitext filename).2 ∉ [".csv"; ".json"; ".yaml"] ->
  load P filename w = (Raise KeyError, w)
  /\ save P filename data w = (Raise KeyError, w).
Proof. intros _. split; [apply load_KeyError|apply save_KeyError]. Qed.

(** C7 (the code departs from the claim).  The claim has [save] return
    the content it was given.  In the source [save] subscripts the
    writers' registry with the pair that [os.path.splitext] returns, so
    for every path and content it raises [KeyError] before any writer
    runs; [save("report.json", ledger)] is one such call. *)
Theorem save_raises_KeyError :
  (forall filename data w, save P filename data w = (Raise KeyError, w))
  /\ save P "report.json" ledger w_abc = (Raise KeyError, w_abc).
Proof. split; [apply save_KeyError|reflexivity]. Qed.

(** C8 (the code departs from the claim).  The claim has [save] followed
    by [load] give the content back.  In the source the sequence stops at
    [save] with [KeyError] and no file written, and [load] on its own
    raises [KeyError] as well. *)
Theorem save_then_load_KeyError filename data w :
  (let! _ := save P filename data in load P filename) w = (Raise KeyError, w)
  /\ load P filename (save P filename data w).2 = (Raise KeyError, w).
Proof. split; reflexivity. Qed.

(** C9 (the code departs from the claim).  The claim has the CSV writer
    emit the rows in ascending order of Date under a header that starts
    with Date and continues with the other columns in alphabetical
    order.  In the source the rows are sorted, but nothing is emitted:
    [open_for_write] passes [os.makedirs] a keyword it does not have, so
    every call raises and leaves the files alone.  The field names the
    source computes for the ledger hold Date twice, because the set it
    subtracts is the set of the characters of the column name. *)
Theorem default_write_csv_raises :
  (forall filename data w,
      exists e, default_write_csv P filename data w = (Raise e, w))
  /\ (forall w, default_write_csv P "ledger.csv" ledger w = (Raise TypeError, w))
  /\ fieldnames (VStr "Date") ledger = Ok [VStr "Date"; VStr "Date"; VStr "Item"].
Proof.
  split; [|split; reflexivity].
  intros filename data w. apply write_csv_raises.
Qed.

End Claims.

(** C10 (the code departs from the claim).  The claim has every function
    that takes a filename expand it before touching the filesystem.  In
    the source [modified] hands the name to [os.path.getmtime] as it is
    and [function_cached_with_file] hands it to [os.path.exists] as it
    is: with the file [/home/user/notes.json] present, the name
    [~/notes.json] expands to it, yet [modified] finds no such file. *)
Theorem modified_does_not_expand :
  (forall filename, modified filename = os_path_getmtime filename)
  /\ _expand demo "~/notes.json" = "/home/user/notes.json"
  /\ os_path_getmtime (_expand demo "~/notes.json") w_home = (Ok 7, w_home)
  /\ modified "~/notes.json" w_home = (Raise FileNotFoundError, w_home)
  /\ os_path_exists (_expand demo "~/notes.json") w_home = (Ok true, w_home)
  /\ function_cached_with_file demo (ret (VStr "fresh")) "~/notes.json" w_home
     = (let! contents := ret (VStr "fresh") in save demo "~/notes.json" contents) w_home.
Proof. repeat split; reflexivity. Qed.

(** ** The statements at concrete inputs *)

Lemma combined_stale_TypeError_witness :
  files w_abc !! "a" = Some (File 1 "x")
  /\ Forall (fun n => is_Some (files w_abc !! n)) ["b"; "c"]
  /\ (exists o, o ∈ ["b"; "c"] /\ 1 < stamp w_abc o)
  /\ combined demo "a" (fun _ => Ok VNone) [("b", Ok); ("c", Ok)] w_abc
     = (Raise TypeError, w_abc).
Proof.
  assert (files w_abc !! "a" = Some (File 1 "x")) as Hd by reflexivity.
  assert (Forall (fun n => is_Some (files w_abc !! n)) ["b"; "c"]) as Hall.
  { repeat constructor; eexists; reflexivity. }
  assert (exists o, o ∈ ["b"; "c"] /\ 1 < stamp w_abc o) as Hlt.
  { exists "b". split; [apply elem_of_cons; by left|]. vm_compute. reflexivity. }
  refine (conj Hd (conj Hall (conj Hlt _))).
  exact (combined_stale_TypeError demo "a" (fun _ => Ok VNone)
           [("b", Ok); ("c", Ok)] w_abc (File 1 "x") Hd Hall Hlt).
Defined.

Lemma combined_fresh_KeyError_witness :
  files w_abc !! "b" = Some (File 3 "y")
  /\ [("a", @Ok pyval); ("c", @Ok pyval)] <> []
  /\ Forall (fun n => is_Some (files w_abc !! n)) ["a"; "c"]
  /\ (forall o, o ∈ ["a"; "c"] -> stamp w_abc o <= 3)
  /\ combined demo "b" (fun _ => Ok VNone) [("a", Ok); ("c", Ok)] w_abc
     = (Raise KeyError, w_abc).
Proof.
  assert (files w_abc !! "b" = Some (File 3 "y")) as Hd by reflexivity.
  assert ([("a", @Ok pyval); ("c", @Ok pyval)] <> []) as Hne by discriminate.
  assert (Forall (fun n => is_Some (files w_abc !! n)) ["a"; "c"]) as Hall.
  { repeat constructor; eexists; reflexivity. }
  assert (forall o, o ∈ ["a"; "c"] -> stamp w_abc o <= 3) as Hfresh.
  { intros o Ho. apply elem_of_cons in Ho as [->|Ho]; [by vm_compute|].
    apply list_elem_of_singleton in Ho as ->. by vm_compute. }
  refine (conj Hd (conj Hne (conj Hall (conj Hfresh _)))).
  exact (combined_fresh_KeyError demo "b" (fun _ => Ok VNone)
           [("a", Ok); ("c", Ok)] w_abc (File 3 "y") Hd Hne Hall Hfresh).
Defined.

Lemma read_only_read_json (P : platform) filename : read_only (read_json P filename).
Proof.
  intros w. unfold read_json, open_for_read, bind, py_open.
  destruct (files w !! _expand P filename) as [f|] eqn:Hf; [|done].
  unfold json_load, bind, stream_read. rewrite Hf. unfold lift.
  by destruct (json_loads P (text f)).
Qed.

(** With [load[origin]] bound to the JSON reader and [save] to the JSON
    writer, which empties the file it opens: the origin [b] does not hold
    a JSON document, and the destination [a] is not touched. *)
Lemma combined_decide_then_act_witness :
  files w_abc !! "a" = Some (File 1 "x")
  /\ Forall (fun n => is_Some (files w_abc !! n)) ["b"]
  /\ (exists o, o ∈ ["b"] /\ 1 < stamp w_abc o)
  /\ (forall origin, read_only (read_json demo origin))
  /\ (regenerated (read_json demo) (fun _ => Ok VNone) [("b", Ok)] w_abc).1
     = Raise ValueError
  /\ combined_with demo (read_json demo) (load demo) (write_json demo)
       "a" (fun _ => Ok VNone) [("b", Ok)] w_abc
     = (Raise ValueError, w_abc).
Proof.
  assert (files w_abc !! "a" = Some (File 1 "x")) as Hd by reflexivity.
  assert (Forall (fun n => is_Some (files w_abc !! n)) ["b"]) as Hall.
  { repeat constructor; eexists; reflexivity. }
  assert (exists o, o ∈ ["b"] /\ 1 < stamp w_abc o) as Hstale.
  { exists "b". split; [apply elem_of_cons; by left|]. vm_compute. reflexivity. }
  assert (forall origin, read_only (read_json demo origin)) as Hpure.
  { intros origin. apply read_only_read_json. }
  assert ((regenerated (read_json demo) (fun _ => Ok VNone) [("b", Ok)] w_abc).1
          = Raise ValueError) as Hfail by reflexivity.
  refine (conj Hd (conj Hall (conj Hstale (conj Hpure (conj Hfail _))))).
  exact (proj1 (proj2 (combined_decide_then_act demo))
           (read_json demo) (load demo) (write_json demo)
           "a" (fun _ => Ok VNone) [("b", Ok)] w_abc (File 1 "x") ValueError
           Hd Hall Hstale Hpure Hfail).
Defined.

Lemma most_recently_modified_maximal_witness :
  ["a"; "b"; "c"] <> []
  /\ Forall (fun n => is_Some (files w_abc !! n)) ["a"; "b"; "c"]
  /\ exists best fbest,
       most_recently_modified demo (Names ["a"; "b"; "c"]) w_abc = (Ok best, w_abc)
       /\ best ∈ ["a"; "b"; "c"]
       /\ files w_abc !! best = Some fbest
       /\ forall n fn, n ∈ ["a"; "b"; "c"] -> files w_abc !! n = Some fn ->
                       mtime fn <= mtime fbest.
Proof.
  assert (["a"; "b"; "c"] <> []) as Hne by discriminate.
  assert (Forall (fun n => is_Some (files w_abc !! n)) ["a"; "b"; "c"]) as Hall.
  { repeat constructor; eexists; reflexivity. }
  refine (conj Hne (conj Hall _)).
  exact (proj1 (most_recently_modified_maximal demo) w_abc ["a"; "b"; "c"] Hne Hall).
Defined.

Lemma most_recently_modified_no_match_witness :
  glob_glob demo w_abc "*.csv" = []
  /\ most_recently_modified demo (Pattern "*.csv") w_abc = (Raise IndexError, w_abc).
Proof.
  assert (glob_glob demo w_abc "*.csv" = []) as Hglob by reflexivity.
  split; [exact Hglob|].
  exact (most_recently_modified_no_match demo w_abc "*.csv" Hglob).
Defined.

(** C5 as stated fails: on a pattern without a match the exception is not
    [NotFoundError]. *)
Lemma no_match_is_not_NotFoundError :
  glob_glob demo w_abc "*.csv" = []
  /\ (most_recently_modified demo (Pattern "*.csv") w_abc).1 <> Raise NotFoundError.
Proof. split; [reflexivity|]. vm_compute. discriminate. Qed.

Lemma unrecognized_extension_KeyError_witness :
((splitext "notes.txt").2 ∉ [".csv"; ".json"; ".yaml"])
  /\ load demo "notes.txt" w_abc = (Raise KeyError, w_abc)
  /\ save demo "notes.txt" ledger w_abc = (Raise KeyError, w_abc).
Proof.
  assert ((splitext "notes.txt").2 ∉ [".csv"; ".json"; ".yaml"]) as Hext.
  { vm_compute. intros H.
    repeat (apply elem_of_cons in H as [H|H]; [discriminate H|]).
    by apply elem_of_nil in H. }
  split; [exact Hext|].
  exact (unrecognized_extension_KeyError demo "notes.txt" ledger w_abc Hext).
Defined.

(** C6 as stated fails: on an extension outside the registry the exception
    is not [UnsupportedFormatError]. *)
Lemma unrecognized_extension_is_not_UnsupportedFormatError :
  (splitext "notes.txt").2 = ".txt"
  /\ (load demo "notes.txt" w_abc).1 <> Raise UnsupportedFormatError
  /\ (save demo "notes.txt" ledger w_abc).1 <> Raise UnsupportedFormatError.
Proof. repeat split; vm_compute; discriminate. Qed.

(** ** Checks of the path functions and of the sort *)

Example splitext_csv : splitext "~/data/accounts.csv" = ("~/data/accounts", ".csv").
Proof. reflexivity. Qed.

Example splitext_dotfile : splitext "/home/u/.bashrc" = ("/home/u/.bashrc", "").
Proof. reflexivity. Qed.

Example splitext_dir_dot : splitext "a.b/c" = ("a.b/c", "").
Proof. reflexivity. Qed.

Example splitext_last_dot : splitext "x/..a.tar.gz" = ("x/..a.tar", ".gz").
Proof. reflexivity. Qed.

Example dirname_nested : os_path_dirname "/home/u/out.csv" = "/home/u".
Proof. reflexivity. Qed.

Example dirname_bare : os_path_dirname "out.csv" = "".
Proof. reflexivity. Qed.

Example expand_home : _expand demo "~" = "/home/user".
Proof. reflexivity. Qed.

Example expand_other_user : _expand demo "~bob/x" = "~bob/x".
Proof. reflexivity. Qed.

Example sorted_ledger :
  rbind (py_iter ledger) (py_sorted_by_item (VStr "Date"))
  = Ok [ VDict [(VStr "Date", VStr "2024-01-01"); (VStr "Item", VStr "a")];
         VDict [(VStr "Date", VStr "2024-02-01"); (VStr "Item", VStr "b")] ].
Proof. reflexivity. Qed.

Example sort_is_stable :
  sort_keyed Z.ltb [(2, "p"); (1, "q"); (2, "r"); (1, "s")]
  = [(1, "q"); (1, "s"); (2, "p"); (2, "r")].
Proof. reflexivity. Qed.

Example write_json_truncates :
  (write_json demo "a" (VStr "new") w_abc).1 = Raise TypeError
  /\ files (write_json demo "a" (VStr "new") w_abc).2 !! "a" = Some (File 10 "").
Proof. split; reflexivity. Qed.

Example read_csv_unbound : (default_read_csv demo "a" w_abc).1 = Raise UnboundLocalError.
Proof. reflexivity. Qed.

Example read_yaml_no_attribute : (read_yaml demo "a" w_abc).1 = Raise AttributeError.
Proof. reflexivity. Qed.

(** * Further properties of the module *)

(** ** More on the stable sort *)

Section SortMore.
Context {K A : Type} (ltb : K -> K -> bool).
Implicit Types (x y : K * A) (l : list (K * A)).

Lemma insert_keyed_perm x l : insert_keyed ltb x l ≡ₚ x :: l.
Proof.
  induction l as [|z l IH]; simpl; [done|].
  destruct (ltb z.1 x.1); [|done].
  rewrite IH. apply Permutation_swap.
Qed.

Lemma sort_keyed_perm l : sort_keyed ltb l ≡ₚ l.
Proof.
  induction l as [|z l IH]; simpl; [done|].
  by rewrite insert_keyed_perm, IH.
Qed.
End SortMore.

Section SortStable.
Context {A : Type}.
Implicit Types (x y : Z * A) (l : list (Z * A)).

(** An element is inserted after strictly smaller keys only, so the
    elements of any one key keep their order. *)
Lemma insert_keyed_stable k x l :
  filter (fun y => y.1 = k) (insert_keyed Z.ltb x l)
  = filter (fun y => y.1 = k) (x :: l).
Proof.
  induction l as [|z l IH]; simpl; [done|].
  destruct (Z.ltb_spec z.1 x.1) as [Hlt|Hge]; [|done].
  rewrite !filter_cons in *. rewrite IH.
  repeat case_decide; try done; lia.
Qed.

Lemma sort_keyed_stable k l :
  filter (fun y => y.1 = k) (sort_keyed Z.ltb l) = filter (fun y => y.1 = k) l.
Proof.
  induction l as [|z l IH]; simpl; [done|].
  by rewrite insert_keyed_stable, !filter_cons, IH.
Qed.

Lemma sorted_with (R : relation (Z * A)) (Q : Z * A -> Prop) l :
  StronglySorted R l -> Forall Q l ->
  StronglySorted (fun a b => R a b /\ Q a /\ Q b) l.
Proof.
  induction 1 as [|z l Hl IH Hz]; intros HQ; [constructor|].
  apply Forall_cons in HQ as [Hqz HQ]. constructor; [by apply IH|].
  rewrite Forall_forall in *. intros y Hy. auto.
Qed.

Lemma last_filter_keep (Q : A -> Prop) `{!forall a, Decision (Q a)} (l : list A) a :
  last l = Some a -> Q a -> last (filter Q l) = Some a.
Proof.
  intros (l' & ->)%last_Some Ha.
  rewrite filter_app, filter_cons_True, filter_nil by done.
  apply last_snoc.
Qed.
End SortStable.

(** ** Modification order *)

Lemma zip_stamp w (names : list string) :
  zip (stamp w <$> names) names = (fun n => (stamp w n, n)) <$> names.
Proof.
  induction names as [|n names IH]; [done|].
  rewrite !fmap_cons. simpl. by f_equal.
Qed.

Lemma stamped_sort_elem w (names : list string) (p : Z * string) :
  p ∈ sort_keyed Z.ltb (zip (stamp w <$> names) names) ->
  p.1 = stamp w p.2 /\ p.2 ∈ names.
Proof.
  intros Hp. rewrite sort_keyed_elem in Hp. destruct p as [k n].
  by rewrite elem_of_zip_stamp in Hp.
Qed.

Lemma filter_stamp_zip w t (names : list string) :
  (filter (fun p : Z * string => p.1 = t) (zip (stamp w <$> names) names)).*2
  = filter (fun n => stamp w n = t) names.
Proof.
  rewrite zip_stamp.
  induction names as [|n names IH]; [done|].
  rewrite fmap_cons, !filter_cons. simpl.
  case_decide; [rewrite fmap_cons; simpl|]; by rewrite IH.
Qed.

Lemma filter_stamp_snd w t (l : list (Z * string)) :
  Forall (fun p => p.1 = stamp w p.2) l ->
  filter (fun n => stamp w n = t) l.*2
  = (filter (fun p : Z * string => p.1 = t) l).*2.
Proof.
  induction 1 as [|p l Hp _ IH]; [done|].
  rewrite fmap_cons, !filter_cons, IH, <- Hp.
  case_decide; [by rewrite fmap_cons|done].
Qed.

Lemma mapM_modified_missing names w :
  (exists n, n ∈ names /\ files w !! n = None) ->
  mapM_ modified names w = (Raise FileNotFoundError, w).
Proof.
  induction names as [|m names IH]; intros (n & Hn & Hmiss).
  - by apply elem_of_nil in Hn.
  - simpl. unfold bind at 1. unfold modified at 1, os_path_getmtime.
    destruct (files w !! m) as [f|] eqn:Hm; [|done].
    apply elem_of_cons in Hn as [->|Hn]; [congruence|].
    unfold bind at 1. rewrite IH; [done|eauto].
Qed.

(** The list is returned only when every file was there. *)
Lemma in_modification_order_inv names w ordered w' :
  in_modification_order names w = (Ok ordered, w') ->
  w' = w
  /\ Forall (fun n => is_Some (files w !! n)) names
  /\ ordered = (sort_keyed Z.ltb (zip (stamp w <$> names) names)).*2.
Proof.
  intros Hrun.
  destruct (decide (Forall (fun n => is_Some (files w !! n)) names)) as [Hall|Hnot].
  - rewrite in_modification_order_found in Hrun by done. by simplify_eq.
  - apply not_Forall_Exists, Exists_exists in Hnot as (n & Hn & Hmiss);
      [|intros n; apply _].
    simpl in Hmiss. rewrite <- eq_None_not_Some in Hmiss.
    unfold in_modification_order, bind in Hrun.
    rewrite mapM_modified_missing in Hrun by eauto. done.
Qed.

Lemma seq_getitem_last_inv {A} (l : list A) (x : A) :
  seq_getitem l (-1) = Ok x -> last l = Some x.
Proof.
  destruct (last l) as [y|] eqn:Hlast.
  - rewrite (seq_getitem_last l y Hlast). congruence.
  - apply last_None in Hlast as ->. done.
Qed.

Lemma last_in_modification_order_inv names w best w' :
  (let! ordered := in_modification_order names in
   lift (seq_getitem ordered (-1))) w = (Ok best, w') ->
  w' = w
  /\ Forall (fun n => is_Some (files w !! n)) names
  /\ last (sort_keyed Z.ltb (zip (stamp w <$> names) names)).*2 = Some best.
Proof.
  unfold bind. intros Hrun.
  destruct (in_modification_order names w) as [[ordered|e] w1] eqn:Hord; [|done].
  apply in_modification_order_inv in Hord as (-> & Hall & ->).
  unfold lift in Hrun.
  destruct (seq_getitem _ _) as [b|e] eqn:Hget; [|done].
  apply seq_getitem_last_inv in Hget. by simplify_eq.
Qed.

Lemma last_in_modification_order_best names w best w' :
  (let! ordered := in_modification_order names in
   lift (seq_getitem ordered (-1))) w = (Ok best, w') ->
  w' = w
  /\ best ∈ names
  /\ (forall n, n ∈ names -> stamp w n <= stamp w best)
  /\ last (filter (fun n => stamp w n = stamp w best) names) = Some best.
Proof.
  intros (-> & Hall & Hlast)%last_in_modification_order_inv.
  set (pairs := zip (stamp w <$> names) names) in *.
  rewrite fmap_last in Hlast.
  destruct (last (sort_keyed Z.ltb pairs)) as [[k b]|] eqn:Hsorted; [|done].
  simpl in Hlast. simplify_eq.
  destruct (stamped_sort_elem w names (k, best)) as [Hk Hin];
    [by eapply last_Some_elem_of|]. simpl in Hk, Hin. subst k.
  split; [done|]. split; [done|]. split.
  - intros n Hn.
    apply (sorted_last_max (sort_keyed Z.ltb pairs) (stamp w best, best)
             (sort_keyed_sorted _) Hsorted (stamp w n, n)).
    apply sort_keyed_elem. by apply elem_of_zip_stamp.
  - rewrite <- filter_stamp_zip. fold pairs.
    rewrite <- (sort_keyed_stable (stamp w best) pairs), fmap_last.
    by rewrite (last_filter_keep (fun p : Z * string => p.1 = stamp w best)
                  _ (stamp w best, best) Hsorted).
Qed.

(** The keys are computed from left to right, up to the first name for
    which [modified] raises. *)
Lemma mapM_modified_first before name after w e :
  Forall (fun n => is_Some (files w !! n)) before ->
  modified name w = (Raise e, w) ->
  mapM_ modified (before ++ name :: after) w = (Raise e, w).
Proof.
  intros Hbefore Hname. induction Hbefore as [|m before [f Hf] _ IH]; simpl.
  - unfold bind. by rewrite Hname.
  - unfold bind at 1. rewrite (modified_found _ _ _ Hf).
    unfold bind at 1. by rewrite IH.
Qed.

Section MoreFacts.
Variable P : platform.

(** X1.  Over files that all exist, [in_modification_order] returns a
    rearrangement of the names it was given, in non-decreasing order of
    modification time, and changes nothing. *)
Theorem in_modification_order_sorted_permutation names w :
  Forall (fun n => is_Some (files w !! n)) names ->
  exists ordered,
    in_modification_order names w = (Ok ordered, w)
    /\ ordered ≡ₚ names
    /\ StronglySorted (fun a b => stamp w a <= stamp w b) ordered.
Proof.
  intros Hall. rewrite in_modification_order_found by done.
  eexists. split; [reflexivity|]. split.
  - rewrite sort_keyed_perm, snd_zip; [done|]. by rewrite length_fmap.
  - apply (StronglySorted_fmap snd
             (fun a b : Z * string =>
                key_le a b /\ a.1 = stamp w a.2 /\ b.1 = stamp w b.2)).
    + unfold key_le. intros [k a] [k' b] (Hle & Ha & Hb). simpl in *. lia.
    + apply sorted_with; [apply sort_keyed_sorted|].
      apply Forall_forall. intros p Hp. by apply stamped_sort_elem in Hp as [Hp _].
Qed.

(** X2.  The order is stable: whenever [in_modification_order] returns,
    the files of any one modification time appear in the order in which
    they were given. *)
Theorem in_modification_order_stable names w ordered w' t :
  in_modification_order names w = (Ok ordered, w') ->
  filter (fun n => stamp w n = t) ordered = filter (fun n => stamp w n = t) names.
Proof.
  intros (-> & Hall & ->)%in_modification_order_inv.
  rewrite filter_stamp_snd.
  - by rewrite sort_keyed_stable, filter_stamp_zip.
  - apply Forall_forall. intros p Hp. by apply stamped_sort_elem in Hp as [Hp _].
Qed.

(** X3.  [in_modification_order] and [most_recently_modified] do not
    skip a name whose modification time cannot be read: when the names
    before it are files and [modified] raises for it, both raise that
    same exception, and nothing is changed. *)
Theorem modification_order_propagates before name after w e :
  Forall (fun n => is_Some (files w !! n)) before ->
  modified name w = (Raise e, w) ->
  in_modification_order (before ++ name :: after) w = (Raise e, w)
  /\ most_recently_modified P (Names (before ++ name :: after)) w = (Raise e, w).
Proof.
  intros Hbefore Hname.
  assert (in_modification_order (before ++ name :: after) w = (Raise e, w)) as Hord.
  { unfold in_modification_order, bind.
    by rewrite (mapM_modified_first _ _ _ _ _ Hbefore Hname). }
  split; [done|].
  unfold most_recently_modified, bind at 1, ret. unfold bind. by rewrite Hord.
Qed.

(** X4.  Whenever [most_recently_modified] returns a name from a list of
    names, it is a member of the list, no member is more recent, and among
    the members of the same modification time it is the one listed
    last. *)
Theorem most_recently_modified_last_of_ties names w best w' :
  most_recently_modified P (Names names) w = (Ok best, w') ->
  w' = w
  /\ best ∈ names
  /\ (forall n, n ∈ names -> stamp w n <= stamp w best)
  /\ last (filter (fun n => stamp w n = stamp w best) names) = Some best.
Proof. intros Hrun. by apply last_in_modification_order_best. Qed.

(** X5.  Whenever [most_recently_modified] returns a name for a glob
    pattern, it is one of the matches of the pattern, no match is more
    recent, and among the matches of the same modification time it is
    the last in the order in which [glob] produced them. *)
Theorem most_recently_modified_pattern pattern w best w' :
  most_recently_modified P (Pattern pattern) w = (Ok best, w') ->
  w' = w
  /\ best ∈ glob_glob P w pattern
  /\ (forall n, n ∈ glob_glob P w pattern -> stamp w n <= stamp w best)
  /\ last (filter (fun n => stamp w n = stamp w best) (glob_glob P w pattern))
     = Some best.
Proof. intros Hrun. by apply last_in_modification_order_best. Qed.

End MoreFacts.

(** ** The freshness-gated combiner and the file cache *)

Section CombinerFacts.
Variable P : platform.

Lemma combined_missing destination combiner origins w :
  files w !! destination = None
  \/ (exists o, o ∈ origins.*1 /\ files w !! o = None) ->
  combined P destination combiner origins w = (Raise FileNotFoundError, w).
Proof.
  intros Hmiss. unfold combined. unfold bind at 1.
  unfold modified at 1, os_path_getmtime.
  destruct (files w !! destination) as [fd|] eqn:Hd; [|done].
  destruct Hmiss as [?|Hmiss]; [done|].
  unfold bind at 1. unfold most_recently_modified, bind at 1, ret. unfold bind at 1.
  unfold in_modification_order, bind at 1.
  by rewrite mapM_modified_missing.
Qed.

Lemma combined_empty destination combiner w :
  is_Some (files w !! destination) ->
  combined P destination combiner [] w = (Raise IndexError, w).
Proof.
  intros [fd Hd]. unfold combined. unfold bind at 1.
  by rewrite (modified_found _ _ _ Hd).
Qed.

(** X6.  A destination or an origin whose modification time cannot be
    read stops [combined]: when [modified] raises for the destination, or
    the destination is a file and [modified] raises for an origin after
    origins that are files, [combined] raises that same exception and
    changes nothing.  In particular a destination that is not there is
    not regenerated. *)
Theorem combined_propagates_modified destination combiner origins w e :
  modified destination w = (Raise e, w)
  \/ (is_Some (files w !! destination)
      /\ exists (before : list string) (name : string) (after : list string),
           origins.*1 = (before ++ name :: after)%list
           /\ Forall (fun n => is_Some (files w !! n)) before
           /\ modified name w = (Raise e, w)) ->
  combined P destination combiner origins w = (Raise e, w).
Proof.
  intros [Hd|([fd Hd] & before & name & after & Hsplit & Hbefore & Hname)].
  - unfold combined, bind at 1. by rewrite Hd.
  - unfold combined, bind at 1. rewrite (modified_found _ _ _ Hd).
    unfold bind at 1, most_recently_modified, bind at 1, ret.
    unfold bind at 1, in_modification_order, bind at 1.
    by rewrite Hsplit, (mapM_modified_first _ _ _ _ _ Hbefore Hname).
Qed.

(** X7.  With an existing destination and no origins at all, [combined]
    raises [IndexError] and changes nothing. *)
Theorem combined_no_origins destination combiner w :
  is_Some (files w !! destination) ->
  combined P destination combiner [] w = (Raise IndexError, w).
Proof.
  intros [fd Hd]. unfold combined, bind at 1.
  rewrite (modified_found _ _ _ Hd).
  unfold bind at 1, most_recently_modified, bind at 1, ret.
  unfold bind at 1, in_modification_order, bind at 1. simpl mapM_.
  reflexivity.
Qed.

(** X8.  No invocation of [combined] returns a value or changes a file:
    every one ends in an exception, in the world it started from. *)
Theorem combined_always_raises destination combiner origins w :
  exists e, combined P destination combiner origins w = (Raise e, w).
Proof.
  destruct (files w !! destination) as [fd|] eqn:Hd.
  2: { exists FileNotFoundError. apply combined_missing. auto. }
  destruct origins as [|[origin converter] origins].
  { exists IndexError. by apply combined_empty. }
  set (os := (origin, converter) :: origins).
  destruct (decide (Forall (fun n => is_Some (files w !! n)) os.*1)) as [Hall|Hnot].
  - destruct (combined_test P destination combiner os w fd Hd) as (newest & _ & _ & ->);
      [done|done|].
    destruct (mtime fd <? stamp w newest); eexists; reflexivity.
  - apply not_Forall_Exists, Exists_exists in Hnot as (n & Hn & Hmiss);
      [|intros n; apply _].
    simpl in Hmiss. rewrite <- eq_None_not_Some in Hmiss.
    exists FileNotFoundError. apply combined_missing. eauto.
Qed.

(** X9.  [function_cached_with_file] never returns a value.  When the
    name as given (not expanded) is a file, it raises [KeyError] without
    running the function and changes nothing; otherwise it runs the
    function and ends in the function's own exception or, after the
    function has returned, in [KeyError], in the world the function
    left. *)
Theorem function_cached_with_file_never_returns function filename w :
  exists e w',
    function_cached_with_file P function filename w = (Raise e, w')
    /\ (is_Some (files w !! filename) -> e = KeyError /\ w' = w)
    /\ (files w !! filename = None ->
        function w = (Raise e, w')
        \/ exists contents, function w = (Ok contents, w') /\ e = KeyError).
Proof.
  unfold function_cached_with_file, bind at 1, os_path_exists.
  case_bool_decide as Hex.
  - exists KeyError, w. split; [reflexivity|]. split; [done|].
    intros Hnone. rewrite Hnone in Hex. by destruct Hex.
  - unfold bind. destruct (function w) as [[contents|e] w1] eqn:Hf.
    + exists KeyError, w1. split; [reflexivity|]. split; [done|]. eauto.
    + exists e, w1. split; [reflexivity|]. split; [done|]. eauto.
Qed.

End CombinerFacts.

(** ** Readers and writers *)

Section CodecFacts.
Variable P : platform.

(** X11.  [read_yaml] never returns a document and changes nothing:
    every call ends in an exception, and when the expanded name is a file
    the exception is [AttributeError], raised once the file is open. *)
Theorem read_yaml_never_returns filename w :
  (exists e, read_yaml P filename w = (Raise e, w))
  /\ (is_Some (files w !! _expand P filename) ->
      read_yaml P filename w = (Raise AttributeError, w)).
Proof.
  unfold read_yaml, open_for_read, bind, py_open.
  destruct (files w !! _expand P filename) as [f|] eqn:Hf.
  - split; [by eexists|done].
  - split; [by eexists|]. by intros [? ?].
Qed.

(** X12.  [read_csv] called with classes for [result_type] and
    [row_type], as its defaults and [default_read_csv] do, never returns
    rows and changes nothing.  When the expanded name is a file, the rows
    are read with the plain reader, whatever the row class, and the call
    ends in the reader's exception if it has one and in
    [UnboundLocalError] otherwise. *)
Theorem read_csv_never_returns filename result_class row_class key_column w :
  (exists e,
      read_csv P filename (VClass result_class) (VClass row_class) key_column w
      = (Raise e, w))
  /\ (forall f,
        files w !! _expand P filename = Some f ->
        read_csv P filename (VClass result_class) (VClass row_class) key_column w
        = (Raise match csv_rows P (text f) with
                 | Raise e => e
                 | Ok _ => UnboundLocalError
                 end, w)).
Proof.
  assert (forall f,
            files w !! _expand P filename = Some f ->
            read_csv P filename (VClass result_class) (VClass row_class) key_column w
            = (Raise match csv_rows P (text f) with
                     | Raise e => e
                     | Ok _ => UnboundLocalError
                     end, w)) as Hthere.
  { intros f Hf. unfold read_csv, open_for_read, bind at 1, py_open. rewrite Hf.
    unfold bind at 1, stream_read. rewrite Hf.
    replace (py_isinstance (VClass row_class) ClsDict) with false by done.
    replace (py_isinstance (VClass row_class) ClsTuple) with false by done.
    replace (py_isinstance (VClass result_class) ClsSet) with false by done.
    unfold bind at 1, lift. by destruct (csv_rows P (text f)). }
  split; [|exact Hthere].
  destruct (files w !! _expand P filename) as [f|] eqn:Hf.
  - eexists. by apply Hthere.
  - exists FileNotFoundError.
    unfold read_csv, open_for_read, bind at 1, py_open. by rewrite Hf.
Qed.

(** X13.  [write_json] on a file that is there destroys its content and
    writes nothing in its place: it opens the expanded name for writing,
    which empties the file, and then raises [TypeError]. *)
Theorem write_json_empties_file filename data f w :
  files w !! _expand P filename = Some f ->
  write_json P filename data w
  = (Raise TypeError,
     World (<[_expand P filename := File (clock w) ""]> (files w)) (clock w)).
Proof.
  intros _. unfold write_json, open_for_read, bind at 1, py_open.
  unfold bind at 1, json_dump. simpl param. reflexivity.
Qed.

(** X14.  [open_for_write] never opens a file: every call raises
    [TypeError], from the keyword it passes to [os.makedirs], and leaves
    the files as they are. *)
Theorem open_for_write_never_opens filename args w :
  open_for_write P filename args w = (Raise TypeError, w).
Proof.
  unfold open_for_write, bind, os_makedirs.
  replace (binds _ _ _) with false by done. reflexivity.
Qed.

(** X17.  [write_yaml] on a file that is there destroys its content and
    writes nothing in its place: it opens the expanded name for writing,
    which empties the file, and then raises [TypeError], the open stream
    being what it asks the YAML library to represent. *)
Theorem write_yaml_empties_file filename data f w :
  files w !! _expand P filename = Some f ->
  write_yaml P filename data w
  = (Raise TypeError,
     World (<[_expand P filename := File (clock w) ""]> (files w)) (clock w)).
Proof.
  intros _. unfold write_yaml, open_for_read, bind at 1, py_open.
  unfold bind at 1, yaml_call. simpl String.eqb. cbv iota.
  unfold yaml_dump. simpl param. reflexivity.
Qed.

End CodecFacts.

(** ** The further properties at concrete inputs *)

Lemma in_modification_order_sorted_permutation_witness :
  Forall (fun n => is_Some (files w_abc !! n)) ["a"; "b"; "c"]
  /\ exists ordered,
       in_modification_order ["a"; "b"; "c"] w_abc = (Ok ordered, w_abc)
       /\ ordered ≡ₚ ["a"; "b"; "c"]
       /\ StronglySorted (fun a b => stamp w_abc a <= stamp w_abc b) ordered.
Proof.
  assert (Forall (fun n => is_Some (files w_abc !! n)) ["a"; "b"; "c"]) as Hall.
  { repeat constructor; eexists; reflexivity. }
  split; [exact Hall|].
  exact (in_modification_order_sorted_permutation ["a"; "b"; "c"] w_abc Hall).
Defined.

Lemma in_modification_order_stable_witness :
  in_modification_order ["a"; "b"; "c"] w_abc = (Ok ["a"; "c"; "b"], w_abc)
  /\ filter (fun n => stamp w_abc n = 3) ["a"; "c"; "b"]
     = filter (fun n => stamp w_abc n = 3) ["a"; "b"; "c"].
Proof.
  assert (in_modification_order ["a"; "b"; "c"] w_abc = (Ok ["a"; "c"; "b"], w_abc))
    as Hrun by reflexivity.
  split; [exact Hrun|].
  exact (in_modification_order_stable ["a"; "b"; "c"] w_abc ["a"; "c"; "b"] w_abc 3 Hrun).
Defined.

Lemma modification_order_propagates_witness :
  Forall (fun n => is_Some (files w_abc !! n)) ["a"]
  /\ modified "lost" w_abc = (Raise FileNotFoundError, w_abc)
  /\ in_modification_order ["a"; "lost"; "b"] w_abc = (Raise FileNotFoundError, w_abc)
  /\ most_recently_modified demo (Names ["a"; "lost"; "b"]) w_abc
     = (Raise FileNotFoundError, w_abc).
Proof.
  assert (Forall (fun n => is_Some (files w_abc !! n)) ["a"]) as Hbefore.
  { repeat constructor; eexists; reflexivity. }
  assert (modified "lost" w_abc = (Raise FileNotFoundError, w_abc)) as Hname
    by reflexivity.
  split; [exact Hbefore|]. split; [exact Hname|].
  exact (modification_order_propagates demo ["a"] "lost" ["b"] w_abc
           FileNotFoundError Hbefore Hname).
Defined.

Lemma most_recently_modified_last_of_ties_witness :
  most_recently_modified demo (Names ["a"; "b"; "c"]) w_abc = (Ok "b", w_abc)
  /\ w_abc = w_abc
  /\ "b" ∈ ["a"; "b"; "c"]
  /\ (forall n, n ∈ ["a"; "b"; "c"] -> stamp w_abc n <= stamp w_abc "b")
  /\ last (filter (fun n => stamp w_abc n = stamp w_abc "b") ["a"; "b"; "c"])
     = Some "b".
Proof.
  assert (most_recently_modified demo (Names ["a"; "b"; "c"]) w_abc = (Ok "b", w_abc))
    as Hrun by reflexivity.
  split; [exact Hrun|].
  exact (most_recently_modified_last_of_ties demo ["a"; "b"; "c"] w_abc "b" w_abc Hrun).
Defined.

Lemma most_recently_modified_pattern_witness :
  most_recently_modified demo (Pattern "?") w_abc = (Ok "b", w_abc)
  /\ w_abc = w_abc
  /\ "b" ∈ glob_glob demo w_abc "?"
  /\ (forall n, n ∈ glob_glob demo w_abc "?" -> stamp w_abc n <= stamp w_abc "b")
  /\ last (filter (fun n => stamp w_abc n = stamp w_abc "b") (glob_glob demo w_abc "?"))
     = Some "b".
Proof.
  assert (most_recently_modified demo (Pattern "?") w_abc = (Ok "b", w_abc))
    as Hrun by reflexivity.
  split; [exact Hrun|].
  exact (most_recently_modified_pattern demo "?" w_abc "b" w_abc Hrun).
Defined.

Lemma combined_propagates_modified_witness :
  (modified "lost" w_abc = (Raise FileNotFoundError, w_abc)
   \/ (is_Some (files w_abc !! "lost")
       /\ exists (before : list string) (name : string) (after : list string),
            ["a"] = (before ++ name :: after)%list
            /\ Forall (fun n => is_Some (files w_abc !! n)) before
            /\ modified name w_abc = (Raise FileNotFoundError, w_abc)))
  /\ combined demo "lost" (fun _ => Ok VNone) [("a", Ok)] w_abc
     = (Raise FileNotFoundError, w_abc).
Proof.
  assert (modified "lost" w_abc = (Raise FileNotFoundError, w_abc)
          \/ (is_Some (files w_abc !! "lost")
              /\ exists (before : list string) (name : string) (after : list string),
                   ["a"] = (before ++ name :: after)%list
                   /\ Forall (fun n => is_Some (files w_abc !! n)) before
                   /\ modified name w_abc = (Raise FileNotFoundError, w_abc)))
    as Hfail.
  { left. reflexivity. }
  split; [exact Hfail|].
  exact (combined_propagates_modified demo "lost" (fun _ => Ok VNone) [("a", Ok)]
           w_abc FileNotFoundError Hfail).
Defined.

Lemma combined_no_origins_witness :
  is_Some (files w_abc !! "a")
  /\ combined demo "a" (fun _ => Ok VNone) [] w_abc = (Raise IndexError, w_abc).
Proof.
  assert (is_Some (files w_abc !! "a")) as Hd by (eexists; reflexivity).
  split; [exact Hd|].
  exact (combined_no_origins demo "a" (fun _ => Ok VNone) w_abc Hd).
Defined.

Lemma read_yaml_never_returns_witness :
  is_Some (files w_home !! _expand demo "~/notes.json")
  /\ read_yaml demo "~/notes.json" w_home = (Raise AttributeError, w_home).
Proof.
  assert (is_Some (files w_home !! _expand demo "~/notes.json")) as Hsome
    by (eexists; reflexivity).
  split; [exact Hsome|].
  exact (proj2 (read_yaml_never_returns demo "~/notes.json" w_home) Hsome).
Defined.

Lemma read_csv_never_returns_witness :
  files w_abc !! _expand demo "a" = Some (File 1 "x")
  /\ read_csv demo "a" (VClass ClsList) (VClass ClsDict) (VStr "Date") w_abc
     = (Raise UnboundLocalError, w_abc).
Proof.
  assert (files w_abc !! _expand demo "a" = Some (File 1 "x")) as Hf by reflexivity.
  split; [exact Hf|].
  exact (proj2 (read_csv_never_returns demo "a" ClsList ClsDict (VStr "Date") w_abc)
           (File 1 "x") Hf).
Defined.

Lemma write_json_empties_file_witness :
  files w_abc !! _expand demo "a" = Some (File 1 "x")
  /\ write_json demo "a" (VInt 5) w_abc
     = (Raise TypeError,
        World (<[_expand demo "a" := File (clock w_abc) ""]> (files w_abc))
              (clock w_abc)).
Proof.
  assert (files w_abc !! _expand demo "a" = Some (File 1 "x")) as Hf by reflexivity.
  split; [exact Hf|].
  exact (write_json_empties_file demo "a" (VInt 5) (File 1 "x") w_abc Hf).
Defined.

Lemma write_yaml_empties_file_witness :
  files w_abc !! _expand demo "a" = Some (File 1 "x")
  /\ write_yaml demo "a" (VInt 5) w_abc
     = (Raise TypeError,
        World (<[_expand demo "a" := File (clock w_abc) ""]> (files w_abc))
              (clock w_abc)).
Proof.
  assert (files w_abc !! _expand demo "a" = Some (File 1 "x")) as Hf by reflexivity.
  split; [exact Hf|].
  exact (write_yaml_empties_file demo "a" (VInt 5) (File 1 "x") w_abc Hf).
Defined.

Lemma function_cached_with_file_never_returns_witness :
  is_Some (files w_abc !! "a")
  /\ exists e w',
       function_cached_with_file demo (ret (VStr "fresh")) "a" w_abc = (Raise e, w')
       /\ e = KeyError /\ w' = w_abc.
Proof.
  assert (is_Some (files w_abc !! "a")) as Hd by (eexists; reflexivity).
  split; [exact Hd|].
  destruct (function_cached_with_file_never_returns demo (ret (VStr "fresh")) "a" w_abc)
    as (e & w' & Hrun & Hthere & _).
  exists e, w'. split; [exact Hrun|]. exact (Hthere Hd).
Defined.
